(** * Market equilibrium script: demand/supply power laws, slopes,
      arc elasticity and the subsidy scenario (src/main.py)

    The script computes with IEEE binary64 numbers.  Two readings of its
    arithmetic are used below.

    - [Market]: the formulas over the real numbers, [np.power] on a
      positive base being [Rpower].  The two library solvers the script
      calls ([curve_fit] and [fsolve] of scipy) are not part of the
      repository; the script is modelled as a function of them.
    - [Binary64]: [arc_elasticity] over binary64 values (zeros,
      infinities, NaN and finite numbers), for what the function does when
      a denominator is zero. *)

From Stdlib Require Import Reals Lra Lia List ZArith Bool SpecFloat.
Import ListNotations.

(* ================================================================= *)
(** ** The script over the reals *)

Module Market.

Local Open Scope R_scope.

(** [np.power(x, y)] for a price [x > 0]; every statement below that
    depends on the value of a power assumes a positive base. *)
Definition power (x y : R) : R := Rpower x y.

Definition demand_func (p a b : R) : R := a * power p (- b).

Definition supply_func (p c d : R) : R := c * power p d.

Definition equilibrium (p a_demand b_demand c_supply d_supply : R) : R :=
  let Qd := demand_func p a_demand b_demand in
  let Qs := supply_func p c_supply d_supply in
  Qs - Qd.

Definition demand_derivative (p a b : R) : R :=
  - a * b * power p (- (b + 1)).

Definition supply_derivative (p c d : R) : R :=
  c * d * power p (d - 1).

Definition arc_elasticity (Q1 Q2 P1 P2 : R) : R :=
  let quantity_percent_change := (Q2 - Q1) / ((Q2 + Q1) / 2) in
  let price_percent_change := (P2 - P1) / ((P2 + P1) / 2) in
  quantity_percent_change / price_percent_change.

Definition adjusted_supply_func (p subsidy c d : R) : R :=
  supply_func (p - subsidy) c d.

(** The sample data. *)
Definition prices : list R :=
  [1; 1.25; 1.57; 1.81; 2.09; 2.45; 2.8; 3.19; 3.58; 3.85; 4.5; 5].
Definition demand : list R :=
  [280; 245; 190; 141; 135; 110; 95; 65; 58; 44; 21; 10].
Definition supply : list R :=
  [5; 20; 51; 89; 120; 153; 180; 201; 215; 228; 240; 248].

(** [series.iloc[i]]: position [i] counted from the front, or from the
    back when [i] is negative; out of range raises (here [None]). *)
Definition iloc (s : list R) (i : Z) : option R :=
  let n := Z.of_nat (length s) in
  let j := (if i <? 0 then n + i else i)%Z in
  if ((0 <=? j) && (j <? n))%Z%bool then nth_error s (Z.to_nat j) else None.

(** The comparison [x > y] of two numbers, as the boolean that is printed. *)
Definition gtb (x y : R) : bool := if Rgt_dec x y then true else false.

(** The first and last observations of each column. *)
Definition Q1_demand : option R := iloc demand 0.
Definition Q2_demand : option R := iloc demand (-1).
Definition Q1_supply : option R := iloc supply 0.
Definition Q2_supply : option R := iloc supply (-1).
Definition P1 : option R := iloc prices 0.
Definition P2 : option R := iloc prices (-1).

(** A call [f(x1, x2, x3, x4)] whose arguments were looked up first. *)
Definition call4 (f : R -> R -> R -> R -> R) (x1 x2 x3 x4 : option R) : option R :=
  match x1, x2, x3, x4 with
  | Some v1, Some v2, Some v3, Some v4 => Some (f v1 v2 v3 v4)
  | _, _, _, _ => None
  end.

Definition arc_elasticity_demand : option R :=
  call4 arc_elasticity Q1_demand Q2_demand P1 P2.
Definition arc_elasticity_supply : option R :=
  call4 arc_elasticity Q1_supply Q2_supply P1 P2.

Section Script.

(** [curve_fit f xdata ydata] gives the fitted pair of parameters
    ([popt]); [fsolve f x0] gives the first component of the solution
    found from the starting estimate [x0]. *)
Variable curve_fit : (R -> R -> R -> R) -> list R -> list R -> R * R.
Variable fsolve : (R -> R) -> R -> R.

Definition popt_demand : R * R := curve_fit demand_func prices demand.
Definition popt_supply : R * R := curve_fit supply_func prices supply.

Definition a_demand : R := fst popt_demand.
Definition b_demand : R := snd popt_demand.
Definition c_supply : R := fst popt_supply.
Definition d_supply : R := snd popt_supply.

Definition equilibrium_price : R :=
  fsolve (fun p => equilibrium p a_demand b_demand c_supply d_supply) 2.
Definition equilibrium_quantity : R :=
  supply_func equilibrium_price c_supply d_supply.

Definition demand_slope : R := demand_derivative equilibrium_price a_demand b_demand.
Definition supply_slope : R := supply_derivative equilibrium_price c_supply d_supply.

(** The boolean printed after the two slopes. *)
Definition unstable : bool := gtb supply_slope demand_slope.

(** The subsidy scenario; the script runs it with [subsidy = 0.5]. *)
Variable subsidy : R.

Definition new_equilibrium_price : R :=
  fsolve (fun p => equilibrium p a_demand b_demand c_supply d_supply)
         (equilibrium_price + subsidy).
Definition new_equilibrium_quantity : R :=
  adjusted_supply_func new_equilibrium_price subsidy c_supply d_supply.

Definition consumer_price : R := new_equilibrium_price.
Definition producer_price : R := new_equilibrium_price - subsidy.

End Script.

(** The subsidy of the script. *)
Definition subsidy : R := 0.5.

(** Stand-ins for the two library routines, used to run the script on an
    instance: a fit that returns the parameters [(1, 1)] and a solver
    that returns the price [1], the exact crossing of [Qd = 1/P] and
    [Qs = P]. *)
Definition unit_fit : (R -> R -> R -> R) -> list R -> list R -> R * R :=
  fun _ _ _ => (1, 1).
Definition unit_root : (R -> R) -> R -> R := fun _ _ => 1.

End Market.

(* ================================================================= *)
(** ** Arc elasticity over binary64 *)

Module Binary64.

(** The observations reach [arc_elasticity] as numpy scalars taken from
    the data frame, whose division follows IEEE 754: a zero divisor gives
    an infinity or NaN (with a warning), not an exception.  The integer
    quantities of the sample are exact in binary64, so all four arguments
    are taken as binary64 values. *)
Definition prec : Z := 53.
Definition emax : Z := 1024.

Definition float : Type := spec_float.

Definition add : float -> float -> float := SFadd prec emax.
Definition sub : float -> float -> float := SFsub prec emax.
Definition div : float -> float -> float := SFdiv prec emax.
Definition mul : float -> float -> float := SFmul prec emax.

(** An integer literal. *)
Definition of_Z (z : Z) : float := binary_normalize prec emax z 0 false.

Definition arc_elasticity (Q1 Q2 P1 P2 : float) : float :=
  let quantity_percent_change := div (sub Q2 Q1) (div (add Q2 Q1) (of_Z 2)) in
  let price_percent_change := div (sub P2 P1) (div (add P2 P1) (of_Z 2)) in
  div quantity_percent_change price_percent_change.

(** Infinity or NaN. *)
Definition non_finite (x : float) : bool :=
  match x with
  | S754_infinity _ | S754_nan => true
  | S754_zero _ | S754_finite _ _ _ => false
  end.

Definition is_zero (x : float) : bool :=
  match x with
  | S754_zero _ => true
  | _ => false
  end.

Definition is_nan (x : float) : bool :=
  match x with
  | S754_nan => true
  | _ => false
  end.

(** A number that is neither zero, infinite nor NaN. *)
Definition is_finite_nonzero (x : float) : bool :=
  match x with
  | S754_finite _ _ _ => true
  | _ => false
  end.

End Binary64.


(* ================================================================= *)
(** ** Properties of the formulas *)

Module MarketFacts.

Import Market.
Local Open Scope R_scope.

Lemma power_pos (x y : R) : 0 < power x y.
Proof. unfold power, Rpower. apply exp_pos. Qed.

Lemma power_one_l (y : R) : power 1 y = 1.
Proof.
  unfold power, Rpower. rewrite ln_1, Rmult_0_r. apply exp_0.
Qed.

Lemma gtb_true_iff (x y : R) : gtb x y = true <-> x > y.
Proof.
  unfold gtb. destruct (Rgt_dec x y); split; intro H; auto; discriminate.
Qed.

Lemma demand_derivative_neg (p a b : R) :
  0 < a -> 0 < b -> demand_derivative p a b < 0.
Proof.
  intros Ha Hb. unfold demand_derivative.
  pose proof (power_pos p (- (b + 1))) as Hp.
  assert (0 < a * b) by (apply Rmult_lt_0_compat; assumption).
  replace (- a * b * power p (- (b + 1)))
    with (- ((a * b) * power p (- (b + 1)))) by ring.
  apply Ropp_lt_gt_0_contravar, Rmult_lt_0_compat; assumption.
Qed.

Lemma supply_derivative_pos (p c d : R) :
  0 < c -> 0 < d -> 0 < supply_derivative p c d.
Proof.
  intros Hc Hd. unfold supply_derivative.
  apply Rmult_lt_0_compat; [apply Rmult_lt_0_compat; assumption|apply power_pos].
Qed.

(** C7: for a price [p > 0] the two slope functions are the formulas
    [-a*b*p^-(b+1)] and [c*d*p^(d-1)], and they are the derivatives in [p]
    of [demand_func] and [supply_func] at [p]. *)
Theorem C7_slopes_are_derivatives (p a b c d : R) :
  0 < p ->
  demand_derivative p a b = - a * b * power p (- (b + 1)) /\
  supply_derivative p c d = c * d * power p (d - 1) /\
  derivable_pt_lim (fun x => demand_func x a b) p (demand_derivative p a b) /\
  derivable_pt_lim (fun x => supply_func x c d) p (supply_derivative p c d).
Proof.
  intros Hp. repeat split.
  - unfold demand_derivative, demand_func, power.
    replace (- a * b * Rpower p (- (b + 1)))
      with (a * (- b * Rpower p (- b - 1))).
    + apply (derivable_pt_lim_scal (fun x => Rpower x (- b)) a p).
      apply derivable_pt_lim_power; exact Hp.
    + replace (- (b + 1)) with (- b - 1) by ring. ring.
  - unfold supply_derivative, supply_func, power.
    replace (c * d * Rpower p (d - 1)) with (c * (d * Rpower p (d - 1))) by ring.
    apply (derivable_pt_lim_scal (fun x => Rpower x d) c p).
    apply derivable_pt_lim_power; exact Hp.
Qed.

Lemma C7_slopes_are_derivatives_witness :
  demand_derivative 2 3 1 = - 3 * 1 * power 2 (- (1 + 1)) /\
  supply_derivative 2 5 1 = 5 * 1 * power 2 (1 - 1) /\
  derivable_pt_lim (fun x => demand_func x 3 1) 2 (demand_derivative 2 3 1) /\
  derivable_pt_lim (fun x => supply_func x 5 1) 2 (supply_derivative 2 5 1).
Proof. apply (C7_slopes_are_derivatives 2 3 1 5 1). lra. Defined.

(** C10: with [p > 0] and positive parameters the demand slope is
    negative and the supply slope positive, so the printed comparison
    [supply_slope > demand_slope] is [True] whatever their sizes. *)
Theorem C10_slope_signs_force_flag (p a b c d : R) :
  0 < p -> 0 < a -> 0 < b -> 0 < c -> 0 < d ->
  demand_derivative p a b < 0 /\
  0 < supply_derivative p c d /\
  gtb (supply_derivative p c d) (demand_derivative p a b) = true.
Proof.
  intros _ Ha Hb Hc Hd.
  pose proof (demand_derivative_neg p a b Ha Hb) as Hn.
  pose proof (supply_derivative_pos p c d Hc Hd) as Hs.
  repeat split; try assumption.
  apply gtb_true_iff. lra.
Qed.

Lemma C10_slope_signs_force_flag_witness :
  demand_derivative 2 3 1 < 0 /\
  0 < supply_derivative 2 5 1 /\
  gtb (supply_derivative 2 5 1) (demand_derivative 2 3 1) = true.
Proof. apply (C10_slope_signs_force_flag 2 3 1 5 1); lra. Defined.

Lemma unstable_true curve_fit fsolve :
  0 < a_demand curve_fit -> 0 < b_demand curve_fit ->
  0 < c_supply curve_fit -> 0 < d_supply curve_fit ->
  unstable curve_fit fsolve = true.
Proof.
  intros Ha Hb Hc Hd. unfold unstable, supply_slope, demand_slope.
  apply gtb_true_iff.
  pose proof (demand_derivative_neg (equilibrium_price curve_fit fsolve) _ _ Ha Hb).
  pose proof (supply_derivative_pos (equilibrium_price curve_fit fsolve) _ _ Hc Hd).
  lra.
Qed.

(** C2: at the equilibrium price 1 of the curves [Qd = P^-2] and
    [Qs = P] the demand slope is negative and the supply slope positive;
    the signed comparison that is printed is [True], while the magnitude
    condition [|dQs/dP| > |dQd/dP|] of the comment above the slope
    functions is false. *)
Theorem C2_signed_comparison_is_not_magnitude_condition :
  equilibrium 1 1 2 1 1 = 0 /\
  demand_derivative 1 1 2 = -2 /\
  supply_derivative 1 1 1 = 1 /\
  gtb (supply_derivative 1 1 1) (demand_derivative 1 1 2) = true /\
  ~ Rabs (supply_derivative 1 1 1) > Rabs (demand_derivative 1 1 2).
Proof.
  assert (Hd : demand_derivative 1 1 2 = -2).
  { unfold demand_derivative. rewrite power_one_l. ring. }
  assert (Hs : supply_derivative 1 1 1 = 1).
  { unfold supply_derivative. rewrite power_one_l. ring. }
  repeat split; try assumption.
  - unfold equilibrium, supply_func, demand_func. rewrite !power_one_l. ring.
  - apply gtb_true_iff. rewrite Hd, Hs. lra.
  - rewrite Hd, Hs, (Rabs_left (-2)), Rabs_pos_eq by lra. lra.
Qed.

(** C4: [arc_elasticity] is the midpoint formula, and the script calls
    it twice: on the first and last demand observations (280 and 10) and
    on the first and last supply observations (5 and 248), each with the
    first and last price (1 and 5) of the raw sample. *)
Theorem C4_arc_elasticity_midpoint_formula :
  (forall Q1 Q2 P1 P2 : R,
     arc_elasticity Q1 Q2 P1 P2 =
     ((Q2 - Q1) / ((Q2 + Q1) / 2)) / ((P2 - P1) / ((P2 + P1) / 2))) /\
  (Q1_demand = hd_error demand /\ Q2_demand = Some (last demand 0) /\
   Q1_supply = hd_error supply /\ Q2_supply = Some (last supply 0) /\
   P1 = hd_error prices /\ P2 = Some (last prices 0)) /\
  arc_elasticity_demand = Some (arc_elasticity 280 10 1 5) /\
  arc_elasticity_supply = Some (arc_elasticity 5 248 1 5) /\
  arc_elasticity 280 10 1 5 = - 81 / 58 /\
  arc_elasticity 5 248 1 5 = 729 / 506.
Proof.
  split; [intros; reflexivity|].
  split; [repeat split; reflexivity|].
  split; [reflexivity|]. split; [reflexivity|].
  unfold arc_elasticity. split; field.
Qed.

(** C5 (amended): in exact real arithmetic, multiplying both
    quantities, or both prices, by a positive constant leaves the arc
    elasticity unchanged (denominators nonzero).  Over binary64 the
    products and quotients are rounded and the two values can differ in
    the last place, see [Binary64Facts]. *)
Theorem C5_arc_elasticity_scale_invariant (k Q1 Q2 P1 P2 : R) :
  0 < k -> Q2 + Q1 <> 0 -> P2 + P1 <> 0 -> P2 - P1 <> 0 ->
  arc_elasticity (k * Q1) (k * Q2) P1 P2 = arc_elasticity Q1 Q2 P1 P2 /\
  arc_elasticity Q1 Q2 (k * P1) (k * P2) = arc_elasticity Q1 Q2 P1 P2.
Proof.
  intros Hk HQ HP HdP. unfold arc_elasticity.
  assert (Hscale : forall x, x <> 0 -> k * x <> 0).
  { intros x Hx. apply Rmult_integral_contrapositive_currified; lra. }
  pose proof (Hscale _ HQ) as HkQ. pose proof (Hscale _ HP) as HkP.
  pose proof (Hscale _ HdP) as HkdP.
  rewrite Rmult_plus_distr_l in HkQ, HkP. rewrite Rmult_minus_distr_l in HkdP.
  split; field; repeat split; assumption.
Qed.

Lemma C5_arc_elasticity_scale_invariant_witness :
  arc_elasticity (3 * 280) (3 * 10) 1 5 = arc_elasticity 280 10 1 5 /\
  arc_elasticity 280 10 (3 * 1) (3 * 5) = arc_elasticity 280 10 1 5.
Proof. apply (C5_arc_elasticity_scale_invariant 3 280 10 1 5); lra. Defined.

(** Monotonicity of the two fitted curves in the price. *)
Lemma supply_func_increasing (c d x y : R) :
  0 < c -> 0 < d -> 0 < x -> x < y -> supply_func x c d < supply_func y c d.
Proof.
  intros Hc Hd Hx Hxy. unfold supply_func, power.
  apply Rmult_lt_compat_l; [exact Hc|].
  apply Rlt_Rpower_l; [exact Hd|split; assumption].
Qed.

Lemma demand_func_decreasing (a b x y : R) :
  0 < a -> 0 < b -> 0 < x -> x < y -> demand_func y a b < demand_func x a b.
Proof.
  intros Ha Hb Hx Hxy. unfold demand_func, power.
  apply Rmult_lt_compat_l; [exact Ha|].
  rewrite !Rpower_Ropp.
  assert (Hlt : Rpower x b < Rpower y b)
    by (apply Rlt_Rpower_l; [exact Hb|split; assumption]).
  apply Rinv_lt_contravar; [|exact Hlt].
  apply Rmult_lt_0_compat; apply exp_pos.
Qed.

Lemma unit_equilibrium : equilibrium 1 1 1 1 1 = 0.
Proof.
  unfold equilibrium, supply_func, demand_func. rewrite !power_one_l. ring.
Qed.

(** C6: the consumer price is the new equilibrium price and the producer
    price is that price minus the subsidy; with a positive subsidy the
    consumer price is above the producer price by the subsidy. *)
Theorem C6_consumer_and_producer_price curve_fit fsolve (subsidy : R) :
  0 < subsidy ->
  consumer_price curve_fit fsolve subsidy
    = new_equilibrium_price curve_fit fsolve subsidy /\
  producer_price curve_fit fsolve subsidy
    = new_equilibrium_price curve_fit fsolve subsidy - subsidy /\
  producer_price curve_fit fsolve subsidy
    = consumer_price curve_fit fsolve subsidy - subsidy /\
  producer_price curve_fit fsolve subsidy < consumer_price curve_fit fsolve subsidy /\
  consumer_price curve_fit fsolve subsidy - producer_price curve_fit fsolve subsidy
    = subsidy.
Proof.
  intros Hs. unfold consumer_price, producer_price.
  repeat split; try reflexivity; [lra|ring].
Qed.

Lemma C6_consumer_and_producer_price_witness :
  consumer_price unit_fit unit_root Market.subsidy
    = new_equilibrium_price unit_fit unit_root Market.subsidy /\
  producer_price unit_fit unit_root Market.subsidy
    = new_equilibrium_price unit_fit unit_root Market.subsidy - Market.subsidy /\
  producer_price unit_fit unit_root Market.subsidy
    = consumer_price unit_fit unit_root Market.subsidy - Market.subsidy /\
  producer_price unit_fit unit_root Market.subsidy
    < consumer_price unit_fit unit_root Market.subsidy /\
  consumer_price unit_fit unit_root Market.subsidy
    - producer_price unit_fit unit_root Market.subsidy = Market.subsidy.
Proof.
  apply (C6_consumer_and_producer_price unit_fit unit_root Market.subsidy).
  unfold Market.subsidy. lra.
Defined.

(** C1: the residual handed to the solver in the subsidy scenario is
    the one of the first solve, supply minus demand without the subsidy;
    only the starting estimate moves.  So at a price the solver returns
    as an exact root, above a positive subsidy, the adjusted supply
    [supply(P' - subsidy)] is strictly below the demand: the price found
    is not the crossing of demand and adjusted supply. *)
Theorem C1_subsidy_solve_uses_unadjusted_supply curve_fit fsolve (subsidy : R) :
  let a := a_demand curve_fit in let b := b_demand curve_fit in
  let c := c_supply curve_fit in let d := d_supply curve_fit in
  let P' := new_equilibrium_price curve_fit fsolve subsidy in
  0 < c -> 0 < d -> 0 < subsidy < P' ->
  equilibrium P' a b c d = 0 ->
  P' = fsolve (fun p => supply_func p c d - demand_func p a b)
              (equilibrium_price curve_fit fsolve + subsidy) /\
  supply_func P' c d = demand_func P' a b /\
  adjusted_supply_func P' subsidy c d < demand_func P' a b.
Proof.
  intros a b c d P' Hc Hd [Hs HP] Hroot.
  split; [reflexivity|].
  assert (Heq : supply_func P' c d = demand_func P' a b).
  { unfold equilibrium in Hroot. lra. }
  split; [exact Heq|].
  rewrite <- Heq. unfold adjusted_supply_func.
  apply supply_func_increasing; lra.
Qed.

Lemma C1_subsidy_solve_uses_unadjusted_supply_witness :
  new_equilibrium_price unit_fit unit_root Market.subsidy
    = unit_root (fun p => supply_func p 1 1 - demand_func p 1 1)
                (equilibrium_price unit_fit unit_root + Market.subsidy) /\
  supply_func 1 1 1 = demand_func 1 1 1 /\
  adjusted_supply_func 1 Market.subsidy 1 1 < demand_func 1 1 1.
Proof.
  apply (C1_subsidy_solve_uses_unadjusted_supply unit_fit unit_root Market.subsidy).
  - unfold c_supply, popt_supply, unit_fit; simpl; lra.
  - unfold d_supply, popt_supply, unit_fit; simpl; lra.
  - unfold Market.subsidy, new_equilibrium_price, unit_root. lra.
  - exact unit_equilibrium.
Defined.

(** *** Uniqueness and conditioning of the crossing *)


Lemma equilibrium_increasing (a b c d x y : R) :
  0 < a -> 0 < b -> 0 < c -> 0 < d -> 0 < x -> x < y ->
  equilibrium x a b c d < equilibrium y a b c d.
Proof.
  intros Ha Hb Hc Hd Hx Hxy. unfold equilibrium.
  pose proof (supply_func_increasing c d x y Hc Hd Hx Hxy).
  pose proof (demand_func_decreasing a b x y Ha Hb Hx Hxy).
  lra.
Qed.


(** The crossing of the two fitted curves in closed form. *)
Lemma equilibrium_crossing (a b c d : R) :
  0 < a -> 0 < c -> 0 < b + d ->
  equilibrium (power (a / c) (/ (b + d))) a b c d = 0.
Proof.
  intros Ha Hc Hbd. unfold equilibrium, supply_func, demand_func, power.
  assert (Hac : 0 < a / c) by (apply Rdiv_lt_0_compat; assumption).
  rewrite !Rpower_mult.
  replace (/ (b + d) * d) with (1 + / (b + d) * - b) by (field; lra).
  rewrite Rpower_plus, Rpower_1 by exact Hac.
  field. lra.
Qed.





Lemma exact_roots_equal (a b c d x y : R) :
  0 < a -> 0 < b -> 0 < c -> 0 < d -> 0 < x -> 0 < y ->
  equilibrium x a b c d = 0 -> equilibrium y a b c d = 0 -> x = y.
Proof.
  intros Ha Hb Hc Hd Hx Hy Hrx Hry.
  destruct (Rtotal_order x y) as [Hlt|[Heq|Hgt]]; [exfalso|exact Heq|exfalso].
  - pose proof (equilibrium_increasing a b c d x y Ha Hb Hc Hd Hx Hlt). lra.
  - pose proof (equilibrium_increasing a b c d y x Ha Hb Hc Hd Hy Hgt). lra.
Qed.

Lemma demand_func_derivable (p a b : R) :
  0 < p -> derivable_pt_lim (fun x => demand_func x a b) p (demand_derivative p a b).
Proof.
  intro Hp. unfold demand_derivative, demand_func, power.
  replace (- a * b * Rpower p (- (b + 1)))
    with (a * (- b * Rpower p (- b - 1))).
  - apply (derivable_pt_lim_scal (fun x => Rpower x (- b)) a p).
    apply derivable_pt_lim_power; exact Hp.
  - replace (- (b + 1)) with (- b - 1) by ring. ring.
Qed.

Lemma supply_func_derivable (p c d : R) :
  0 < p -> derivable_pt_lim (fun x => supply_func x c d) p (supply_derivative p c d).
Proof.
  intro Hp. unfold supply_derivative, supply_func, power.
  replace (c * d * Rpower p (d - 1)) with (c * (d * Rpower p (d - 1))) by ring.
  apply (derivable_pt_lim_scal (fun x => Rpower x d) c p).
  apply derivable_pt_lim_power; exact Hp.
Qed.

Lemma equilibrium_derivable (p a b c d : R) :
  0 < p ->
  derivable_pt_lim (fun x => equilibrium x a b c d) p
    (supply_derivative p c d - demand_derivative p a b).
Proof.
  intro Hp.
  apply (derivable_pt_lim_minus (fun x => supply_func x c d)
           (fun x => demand_func x a b) p).
  - apply supply_func_derivable; exact Hp.
  - apply demand_func_derivable; exact Hp.
Qed.







End MarketFacts.

(* ================================================================= *)
(** ** Arc elasticity with a zero denominator *)

Module Binary64Facts.

Import Binary64.

(** A zero divisor, or a NaN one, never gives a finite quotient. *)
Lemma div_by_zero_non_finite (x y : float) :
  is_zero y || is_nan y = true -> non_finite (div x y) = true.
Proof. destruct x, y; simpl; intro H; try discriminate; reflexivity. Qed.

(** An infinite or NaN dividend never gives a finite quotient. *)
Lemma div_of_non_finite (x y : float) :
  non_finite x = true -> non_finite (div x y) = true.
Proof. destruct x, y; simpl; intro H; try discriminate; reflexivity. Qed.

(** A zero dividend gives a zero or NaN. *)
Lemma div_of_zero (x y : float) :
  is_zero x || is_nan x = true -> is_zero (div x y) || is_nan (div x y) = true.
Proof. destruct x, y; simpl; intro H; try discriminate; reflexivity. Qed.

(** Halving a zero gives the same zero. *)
Lemma half_of_zero (x : float) :
  is_zero x = true -> is_zero (div x (of_Z 2)) = true.
Proof. destruct x; simpl; intro H; try discriminate; reflexivity. Qed.

(** [p - p] is a zero, or NaN when [p] is infinite or NaN. *)
Lemma sub_diag (p : float) : is_zero (sub p p) || is_nan (sub p p) = true.
Proof.
  destruct p as [s|s| |s m e].
  - destruct s; reflexivity.
  - destruct s; reflexivity.
  - reflexivity.
  - unfold sub, SFsub. rewrite Z.sub_diag. reflexivity.
Qed.

(** A finite or zero dividend over an infinite divisor gives a zero. *)
Lemma div_by_infinity (x y : float) :
  non_finite x = false -> non_finite y = true -> is_nan y = false ->
  is_zero (div x y) = true.
Proof. destruct x, y; simpl; intros; try discriminate; reflexivity. Qed.

(** A nonzero number over a zero is an infinity. *)
Lemma div_nonzero_by_zero (x y : float) :
  is_zero x = false -> is_nan x = false -> is_zero y = true ->
  non_finite (div x y) = true /\ is_nan (div x y) = false.
Proof. destruct x, y; simpl; intros; try discriminate; split; reflexivity. Qed.

(** C5 (as stated it fails over binary64): with [k] the binary64
    number nearest to 0.1, the quantities 280 and 10 and the prices 1 and
    5 (all denominators nonzero), scaling the two prices by [k] changes
    the last place of the computed arc elasticity. *)
Lemma C5_price_scaling_changes_last_place :
  div (of_Z 1) (of_Z 10) = S754_finite false 7205759403792794 (-56) /\
  arc_elasticity (of_Z 280) (of_Z 10) (of_Z 1) (of_Z 5)
    = S754_finite true 6289509824431210 (-52) /\
  arc_elasticity (of_Z 280) (of_Z 10)
      (mul (div (of_Z 1) (of_Z 10)) (of_Z 1))
      (mul (div (of_Z 1) (of_Z 10)) (of_Z 5))
    = S754_finite true 6289509824431209 (-52) /\
  arc_elasticity (of_Z 280) (of_Z 10)
      (mul (div (of_Z 1) (of_Z 10)) (of_Z 1))
      (mul (div (of_Z 1) (of_Z 10)) (of_Z 5))
    <> arc_elasticity (of_Z 280) (of_Z 10) (of_Z 1) (of_Z 5).
Proof.
  repeat split; try (vm_compute; reflexivity).
  vm_compute. discriminate.
Qed.

(** C9 (as stated it fails): with prices -1 and 1 the price average is
    zero, the price percent change is an infinity, and the elasticity of
    the quantities 1 and 3 is the finite value 0. *)
Lemma C9_zero_price_average_gives_finite_result :
  is_zero (add (of_Z 1) (of_Z (-1))) = true /\
  arc_elasticity (of_Z 1) (of_Z 3) (of_Z (-1)) (of_Z 1) = S754_zero false /\
  non_finite (arc_elasticity (of_Z 1) (of_Z 3) (of_Z (-1)) (of_Z 1)) = false.
Proof. repeat split; vm_compute; reflexivity. Qed.

(** C9 (amended): [arc_elasticity] checks nothing and always returns a
    number.  When the two prices are equal, or the sum of the two
    quantities is zero, the result is an infinity or NaN.  When only the
    sum of the two prices is zero (their difference being a nonzero
    number) and the quantity percent change is finite, the result is a
    zero. *)
Theorem C9_zero_denominators (Q1 Q2 P1 P2 : float) :
  non_finite (arc_elasticity Q1 Q2 P1 P1) = true /\
  (is_zero (add Q2 Q1) = true ->
   non_finite (arc_elasticity Q1 Q2 P1 P2) = true) /\
  (is_zero (add P2 P1) = true ->
   is_zero (sub P2 P1) = false -> is_nan (sub P2 P1) = false ->
   non_finite (div (sub Q2 Q1) (div (add Q2 Q1) (of_Z 2))) = false ->
   is_zero (arc_elasticity Q1 Q2 P1 P2) = true).
Proof.
  unfold arc_elasticity. repeat split.
  - apply div_by_zero_non_finite, div_of_zero, sub_diag.
  - intro HQ. apply div_of_non_finite, div_by_zero_non_finite.
    rewrite (half_of_zero _ HQ). reflexivity.
  - intros HP Hnz Hnn Hq.
    destruct (div_nonzero_by_zero (sub P2 P1) (div (add P2 P1) (of_Z 2)) Hnz Hnn
                (half_of_zero _ HP)) as [Hinf Hnotnan].
    apply div_by_infinity; assumption.
Qed.

Lemma C9_zero_denominators_witness :
  non_finite (arc_elasticity (of_Z (-1)) (of_Z 1) (of_Z (-1)) (of_Z (-1))) = true /\
  non_finite (arc_elasticity (of_Z (-1)) (of_Z 1) (of_Z 1) (of_Z 5)) = true /\
  is_zero (arc_elasticity (of_Z 1) (of_Z 3) (of_Z (-1)) (of_Z 1)) = true.
Proof.
  split; [|split].
  - exact (proj1 (C9_zero_denominators (of_Z (-1)) (of_Z 1) (of_Z (-1)) (of_Z 5))).
  - apply (proj1 (proj2 (C9_zero_denominators (of_Z (-1)) (of_Z 1) (of_Z 1) (of_Z 5)))).
    vm_compute; reflexivity.
  - apply (proj2 (proj2 (C9_zero_denominators (of_Z 1) (of_Z 3) (of_Z (-1)) (of_Z 1))));
      vm_compute; reflexivity.
Defined.

End Binary64Facts.

(* ================================================================= *)
(** ** Further properties of the curves and of the crossing *)

Module MarketProperties.

Import Market MarketFacts.
Local Open Scope R_scope.


(** X1: with positive parameters the fitted demand curve slopes down:
    a higher positive price gives a strictly smaller demand. *)
Theorem X1_demand_func_strictly_decreasing (a b p q : R) :
  0 < a -> 0 < b -> 0 < p -> p < q ->
  demand_func q a b < demand_func p a b.
Proof.
  intros Ha Hb Hp Hpq. apply demand_func_decreasing; assumption.
Qed.

Lemma X1_demand_func_strictly_decreasing_witness :
  demand_func 2 280 1 < demand_func 1 280 1.
Proof. apply (X1_demand_func_strictly_decreasing 280 1 1 2); lra. Defined.

(** X2: with positive parameters the fitted supply curve slopes up: a
    higher positive price gives a strictly larger supply. *)
Theorem X2_supply_func_strictly_increasing (c d p q : R) :
  0 < c -> 0 < d -> 0 < p -> p < q ->
  supply_func p c d < supply_func q c d.
Proof.
  intros Hc Hd Hp Hpq. apply supply_func_increasing; assumption.
Qed.

Lemma X2_supply_func_strictly_increasing_witness :
  supply_func 1 5 2 < supply_func 2 5 2.
Proof. apply (X2_supply_func_strictly_increasing 5 2 1 2); lra. Defined.

(** X3: with positive parameters the residual has exactly one positive
    root, the price [(a/c)^(1/(b+d))]. *)
Theorem X3_equilibrium_root_closed_form (a b c d p : R) :
  0 < a -> 0 < b -> 0 < c -> 0 < d -> 0 < p ->
  (equilibrium p a b c d = 0 <-> p = power (a / c) (/ (b + d))).
Proof.
  intros Ha Hb Hc Hd Hp.
  assert (Hroot : equilibrium (power (a / c) (/ (b + d))) a b c d = 0)
    by (apply equilibrium_crossing; lra).
  split.
  - intro H0. apply (exact_roots_equal a b c d); try assumption. apply power_pos.
  - intro Heq. rewrite Heq. exact Hroot.
Qed.

Lemma X3_equilibrium_root_closed_form_witness :
  equilibrium 1 1 1 1 1 = 0 <-> 1 = power (1 / 1) (/ (1 + 1)).
Proof. apply (X3_equilibrium_root_closed_form 1 1 1 1 1); lra. Defined.

(** X4: with positive parameters the residual is negative (demand
    exceeds supply) at every positive price below the crossing
    [(a/c)^(1/(b+d))] and positive (supply exceeds demand) above it. *)
Theorem X4_residual_sign_around_crossing (a b c d p : R) :
  0 < a -> 0 < b -> 0 < c -> 0 < d -> 0 < p ->
  (equilibrium p a b c d < 0 <-> p < power (a / c) (/ (b + d))) /\
  (0 < equilibrium p a b c d <-> power (a / c) (/ (b + d)) < p).
Proof.
  intros Ha Hb Hc Hd Hp.
  set (r := power (a / c) (/ (b + d))).
  assert (Hr : 0 < r) by apply power_pos.
  assert (Hroot : equilibrium r a b c d = 0)
    by (apply equilibrium_crossing; lra).
  assert (Hbelow : p < r -> equilibrium p a b c d < 0).
  { intro Hlt. rewrite <- Hroot. apply equilibrium_increasing; assumption. }
  assert (Habove : r < p -> 0 < equilibrium p a b c d).
  { intro Hlt. rewrite <- Hroot. apply equilibrium_increasing; assumption. }
  split; split; try assumption; intro Hsign.
  - destruct (Rtotal_order p r) as [Hlt|[Heq|Hgt]]; [exact Hlt| |].
    + rewrite Heq in Hsign. lra.
    + pose proof (Habove Hgt). lra.
  - destruct (Rtotal_order p r) as [Hlt|[Heq|Hgt]]; [| |exact Hgt].
    + pose proof (Hbelow Hlt). lra.
    + rewrite Heq in Hsign. lra.
Qed.

Lemma X4_residual_sign_around_crossing_witness :
  (equilibrium 2 1 1 1 1 < 0 <-> 2 < power (1 / 1) (/ (1 + 1))) /\
  (0 < equilibrium 2 1 1 1 1 <-> power (1 / 1) (/ (1 + 1)) < 2).
Proof. apply (X4_residual_sign_around_crossing 1 1 1 1 2); lra. Defined.



(** X6: at a positive price the derivative of the residual in the
    price is the supply slope minus the demand slope. *)
Theorem X6_residual_derivative (p a b c d : R) :
  0 < p ->
  derivable_pt_lim (fun x => equilibrium x a b c d) p
    (supply_derivative p c d - demand_derivative p a b).
Proof.
  intro Hp. apply equilibrium_derivable; exact Hp.
Qed.

Lemma X6_residual_derivative_witness :
  derivable_pt_lim (fun x => equilibrium x 280 1 5 3) 2
    (supply_derivative 2 5 3 - demand_derivative 2 280 1).
Proof. apply (X6_residual_derivative 2 280 1 5 3); lra. Defined.



(** X8: the arc elasticity does not depend on which observation is
    taken first: exchanging the two endpoints gives the same value. *)
Theorem X8_arc_elasticity_endpoint_symmetry (Q1 Q2 P1 P2 : R) :
  Q2 + Q1 <> 0 -> P2 + P1 <> 0 -> P2 - P1 <> 0 ->
  arc_elasticity Q2 Q1 P2 P1 = arc_elasticity Q1 Q2 P1 P2.
Proof.
  intros HQ HP HdP. unfold arc_elasticity.
  assert (HQ' : Q1 + Q2 <> 0) by lra.
  assert (HP' : P1 + P2 <> 0) by lra.
  assert (HdP' : P1 - P2 <> 0) by lra.
  field. repeat split; assumption.
Qed.

Lemma X8_arc_elasticity_endpoint_symmetry_witness :
  arc_elasticity 10 280 5 1 = arc_elasticity 280 10 1 5.
Proof. apply (X8_arc_elasticity_endpoint_symmetry 280 10 1 5); lra. Defined.

(** X9: for a rising price with positive quantity and price sums, the
    arc elasticity has the sign of the quantity change: negative when the
    quantity falls, positive when it rises, zero when it is unchanged. *)
Theorem X9_arc_elasticity_sign (Q1 Q2 P1 P2 : R) :
  0 < Q2 + Q1 -> 0 < P2 + P1 -> P1 < P2 ->
  (Q2 < Q1 -> arc_elasticity Q1 Q2 P1 P2 < 0) /\
  (Q1 < Q2 -> 0 < arc_elasticity Q1 Q2 P1 P2) /\
  (Q1 = Q2 -> arc_elasticity Q1 Q2 P1 P2 = 0).
Proof.
  intros HQ HP HdP.
  assert (Hform : arc_elasticity Q1 Q2 P1 P2
                  = (Q2 - Q1) * ((P2 + P1) / ((Q2 + Q1) * (P2 - P1)))).
  { unfold arc_elasticity. field. repeat split; lra. }
  assert (HK : 0 < (P2 + P1) / ((Q2 + Q1) * (P2 - P1))).
  { apply Rdiv_lt_0_compat; [exact HP|]. apply Rmult_lt_0_compat; lra. }
  rewrite Hform. repeat split; intro Hcmp.
  - assert (Hneg : 0 < Q1 - Q2) by lra.
    pose proof (Rmult_lt_0_compat _ _ Hneg HK). lra.
  - apply Rmult_lt_0_compat; lra.
  - rewrite Hcmp. ring.
Qed.

Lemma X9_arc_elasticity_sign_witness :
  arc_elasticity 280 10 1 5 < 0 /\ 0 < arc_elasticity 5 248 1 5.
Proof.
  split.
  - apply (proj1 (X9_arc_elasticity_sign 280 10 1 5 ltac:(lra) ltac:(lra) ltac:(lra))).
    lra.
  - apply (proj1 (proj2 (X9_arc_elasticity_sign 5 248 1 5
                           ltac:(lra) ltac:(lra) ltac:(lra)))).
    lra.
Defined.



(** X12: the price found in the subsidy scenario does not depend on the
    subsidy.  For positive fitted parameters, when both solves return
    positive exact roots, the new equilibrium price and the consumer
    price equal the first equilibrium price, the producer price is that
    price minus the subsidy, and for a positive subsidy below the price
    the new quantity is strictly below the first quantity. *)
Theorem X12_subsidy_leaves_price_unchanged curve_fit fsolve (subsidy : R) :
  let a := a_demand curve_fit in let b := b_demand curve_fit in
  let c := c_supply curve_fit in let d := d_supply curve_fit in
  let P := equilibrium_price curve_fit fsolve in
  let P' := new_equilibrium_price curve_fit fsolve subsidy in
  0 < a -> 0 < b -> 0 < c -> 0 < d -> 0 < P -> 0 < P' ->
  equilibrium P a b c d = 0 -> equilibrium P' a b c d = 0 ->
  0 < subsidy < P ->
  P' = P /\
  consumer_price curve_fit fsolve subsidy = P /\
  producer_price curve_fit fsolve subsidy = P - subsidy /\
  new_equilibrium_quantity curve_fit fsolve subsidy
    < equilibrium_quantity curve_fit fsolve.
Proof.
  intros a b c d P P' Ha Hb Hc Hd HP HP' Hr Hr' [Hs HsP].
  assert (Heq : P' = P) by (apply (exact_roots_equal a b c d); assumption).
  unfold consumer_price, producer_price, new_equilibrium_quantity,
    equilibrium_quantity, adjusted_supply_func.
  fold P P' c d. rewrite Heq.
  repeat split; try reflexivity.
  apply supply_func_increasing; lra.
Qed.

Lemma X12_subsidy_leaves_price_unchanged_witness :
  new_equilibrium_price unit_fit unit_root Market.subsidy
    = equilibrium_price unit_fit unit_root /\
  consumer_price unit_fit unit_root Market.subsidy
    = equilibrium_price unit_fit unit_root /\
  producer_price unit_fit unit_root Market.subsidy
    = equilibrium_price unit_fit unit_root - Market.subsidy /\
  new_equilibrium_quantity unit_fit unit_root Market.subsidy
    < equilibrium_quantity unit_fit unit_root.
Proof.
  assert (Hpos : 0 < 1) by lra.
  apply (X12_subsidy_leaves_price_unchanged unit_fit unit_root Market.subsidy);
    try exact Hpos; try exact unit_equilibrium.
  unfold Market.subsidy, equilibrium_price, unit_root. lra.
Defined.

End MarketProperties.

(* ================================================================= *)
(** ** Further edge cases of the arc elasticity over binary64 *)

Module Binary64Properties.

Import Binary64.

Lemma sub_of_nan (x y : float) :
  is_nan x || is_nan y = true -> is_nan (sub x y) = true.
Proof. destruct x, y; intro H; try discriminate H; reflexivity. Qed.

Lemma div_of_nan (x y : float) :
  is_nan x || is_nan y = true -> is_nan (div x y) = true.
Proof. destruct x, y; intro H; try discriminate H; reflexivity. Qed.

Lemma div_zero_by_nonzero (x y : float) :
  is_zero x = true -> is_zero y = false -> is_nan y = false ->
  is_zero (div x y) = true.
Proof. destruct x, y; simpl; intros; try discriminate; reflexivity. Qed.

(** X13: a NaN among the four arguments makes the result NaN. *)
Theorem X13_arc_elasticity_propagates_nan (Q1 Q2 P1 P2 : float) :
  is_nan Q1 || is_nan Q2 || is_nan P1 || is_nan P2 = true ->
  is_nan (arc_elasticity Q1 Q2 P1 P2) = true.
Proof.
  intro H. unfold arc_elasticity. apply div_of_nan.
  apply orb_true_iff in H. destruct H as [H|HP2].
  - apply orb_true_iff in H. destruct H as [H|HP1].
    + apply orb_true_iff. left. apply div_of_nan.
      apply orb_true_iff. left. apply sub_of_nan.
      rewrite orb_comm. exact H.
    + apply orb_true_iff. right. apply div_of_nan.
      apply orb_true_iff. left. apply sub_of_nan.
      rewrite HP1. apply orb_true_r.
  - apply orb_true_iff. right. apply div_of_nan.
    apply orb_true_iff. left. apply sub_of_nan.
    rewrite HP2. reflexivity.
Qed.

Lemma X13_arc_elasticity_propagates_nan_witness :
  is_nan (arc_elasticity (of_Z 280) S754_nan (of_Z 1) (of_Z 5)) = true.
Proof.
  apply (X13_arc_elasticity_propagates_nan (of_Z 280) S754_nan (of_Z 1) (of_Z 5)).
  vm_compute; reflexivity.
Defined.

(** X14: equal quantities are no division by zero: when the quantity
    change is a zero, the quantity average is neither zero nor NaN and
    the price percent change is neither zero nor NaN, the result is a
    zero. *)
Theorem X14_zero_quantity_change_gives_zero (Q1 Q2 P1 P2 : float) :
  is_zero (sub Q2 Q1) = true ->
  is_zero (div (add Q2 Q1) (of_Z 2)) = false ->
  is_nan (div (add Q2 Q1) (of_Z 2)) = false ->
  is_zero (div (sub P2 P1) (div (add P2 P1) (of_Z 2))) = false ->
  is_nan (div (sub P2 P1) (div (add P2 P1) (of_Z 2))) = false ->
  is_zero (arc_elasticity Q1 Q2 P1 P2) = true.
Proof.
  intros HdQ Havg0 Havgn Hpp0 Hppn. unfold arc_elasticity.
  apply div_zero_by_nonzero; try assumption.
  apply div_zero_by_nonzero; assumption.
Qed.

Lemma X14_zero_quantity_change_gives_zero_witness :
  is_zero (arc_elasticity (of_Z 3) (of_Z 3) (of_Z 1) (of_Z 5)) = true.
Proof.
  apply (X14_zero_quantity_change_gives_zero (of_Z 3) (of_Z 3) (of_Z 1) (of_Z 5));
    vm_compute; reflexivity.
Defined.

End Binary64Properties.
